(** * WiFiConnectionManager: a shallow embedding of [src/index.ts]

    The manager is a JavaScript object whose methods run inside callbacks of
    two host services: the Wi-Fi driver (the [WiFi] base class of the
    Moddable SDK) and the timer service ([Timer]).  Methods mutate the
    fields of [this], call the driver, schedule and cancel timers and invoke
    the caller's callback.  They are embedded as computations of a small
    state-and-exception monad that also collects, in order, the effects a
    call performs on its collaborators. *)

From stdpp Require Import gmap strings list fin_maps.

(** ** Data *)

(** The [WiFiMessage] union of string literals. *)
Inductive WiFiMessage : Set :=
| gotIP
| lostIP
| connect
| disconnect
| station_connect
| station_disconnect.

#[global] Instance WiFiMessage_eq_dec : EqDecision WiFiMessage.
Proof. solve_decision. Defined.

(** Modelled from the spec: the [WiFiOptions] type is declared by the SDK
    typings, not by this repository; an access point credential is a name
    and a secret. *)
Record WiFiOptions : Set := { ssid : string; password : string }.

(** [APIndex] is a JavaScript number.  It only ever holds a natural number
    or, after a remainder by a zero length, [NaN]. *)
Inductive Number : Set :=
| Num (n : nat)
| NaN.

(** [(i + 1) % len] on such numbers. *)
Definition next_index (i : Number) (len : nat) : Number :=
  match i with
  | Num n => if decide (len = 0) then NaN else Num ((n + 1) mod len)
  | NaN => NaN
  end.

(** [array[i]]: [undefined] out of range and at [NaN]. *)
Definition array_get {A : Type} (l : list A) (i : Number) : option A :=
  match i with
  | Num n => l !! n
  | NaN => None
  end.

(** A handle returned by [Timer.set].  In JavaScript it is an object, so a
    field holding one is truthy and an [undefined] field is not: the fields
    are options. *)
Definition Timer : Set := nat.

(** The two closures the manager hands to [Timer.set]. *)
Inductive TimerCallback : Set :=
| ConnectionTimeoutFn   (* the closure of [startConnectionTimer] *)
| ReconnectFn.          (* the closure of [handleDisconnect] *)

#[global] Instance TimerCallback_eq_dec : EqDecision TimerCallback.
Proof. solve_decision. Defined.

(** The caller's [onNetworkChange] function, known by an identity. *)
Definition WiFiCallback : Set := nat.

(** Calls into the driver. *)
Inductive DriverCall : Set :=
| DriverNew (options : option WiFiOptions)      (* [super(options, handler)] *)
| DriverConnect (options : option WiFiOptions)  (* [WiFi.connect(options)] *)
| DriverDisconnect                              (* [WiFi.disconnect()] *)
| DriverClose.                                  (* [super.close()] *)

(** What a method call does to the outside, in program order. *)
Inductive Effect : Set :=
| Driver (c : DriverCall)
| TimerSet (h : Timer) (f : TimerCallback) (ms : N)
| TimerClear (h : Timer)
| TimerFired (h : Timer)
| Callback (f : WiFiCallback) (m : WiFiMessage)
| Trace (msg : string).

(** The fields of a [WiFiConnectionManager] instance. *)
Record Manager : Set := mkManager {
  reconnectTimer : option Timer;
  connectionTimer : option Timer;
  currentState : WiFiMessage;
  APIndex : Number;
  accessPointConfig : list WiFiOptions;
  onNetworkChange : option WiFiCallback;
  reconnectInterval : N;
  connectionTimeout : N
}.

(** The manager together with its host: the callbacks the timer service
    holds for it, the next handle the service hands out, and the outcomes
    of the driver calls to come ([true]: the call throws; past the end of
    the list every call succeeds). *)
Record World : Type := mkWorld {
  self : Manager;
  timers : gmap Timer (TimerCallback * N);
  nextTimer : Timer;
  driver : list bool
}.

Definition with_self (f : Manager → Manager) (w : World) : World :=
  mkWorld (f (self w)) (timers w) (nextTimer w) (driver w).

Definition set_reconnectTimer (v : option Timer) (m : Manager) : Manager :=
  mkManager v (connectionTimer m) (currentState m) (APIndex m)
    (accessPointConfig m) (onNetworkChange m) (reconnectInterval m)
    (connectionTimeout m).

Definition set_connectionTimer (v : option Timer) (m : Manager) : Manager :=
  mkManager (reconnectTimer m) v (currentState m) (APIndex m)
    (accessPointConfig m) (onNetworkChange m) (reconnectInterval m)
    (connectionTimeout m).

Definition set_currentState (v : WiFiMessage) (m : Manager) : Manager :=
  mkManager (reconnectTimer m) (connectionTimer m) v (APIndex m)
    (accessPointConfig m) (onNetworkChange m) (reconnectInterval m)
    (connectionTimeout m).

Definition set_APIndex (v : Number) (m : Manager) : Manager :=
  mkManager (reconnectTimer m) (connectionTimer m) (currentState m) v
    (accessPointConfig m) (onNetworkChange m) (reconnectInterval m)
    (connectionTimeout m).

(** ** The monad of method bodies *)

Inductive Outcome (A : Type) : Type :=
| Return (a : A)
| Raise (error : string).
Arguments Return {A} a.
Arguments Raise {A} error.

Definition M (A : Type) : Type := World → Outcome A * World * list Effect.

Definition ret {A} (a : A) : M A := λ w, (Return a, w, []).

Definition bind {A B} (m : M A) (k : A → M B) : M B := λ w,
  match m w with
  | (Return a, w1, l1) =>
      match k a w1 with
      | (o, w2, l2) => (o, w2, l1 ++ l2)
      end
  | (Raise e, w1, l1) => (Raise e, w1, l1)
  end.

(** [try { body } catch (error) { handler }] *)
Definition try_catch {A} (body : M A) (handler : string → M A) : M A := λ w,
  match body w with
  | (Return a, w1, l1) => (Return a, w1, l1)
  | (Raise e, w1, l1) =>
      match handler e w1 with
      | (o, w2, l2) => (o, w2, l1 ++ l2)
      end
  end.

#[global] Instance M_ret : MRet M := @ret.
#[global] Instance M_bind : MBind M := λ A B k m, bind m k.

Definition this : M Manager := λ w, (Return (self w), w, []).
Definition assign (f : Manager → Manager) : M unit :=
  λ w, (Return tt, with_self f w, []).
Definition emit (e : Effect) : M unit := λ w, (Return tt, w, [e]).

(** *** The timer service *)

(** [Timer.set(callback, ms)]: a one-shot timer under a new handle. *)
Definition Timer_set (f : TimerCallback) (ms : N) : M Timer := λ w,
  let h := nextTimer w in
  (Return h,
   mkWorld (self w) (<[h := (f, ms)]> (timers w)) (S h) (driver w),
   [TimerSet h f ms]).

(** [Timer.clear(handle)]: the callback will not run; clearing a handle
    that has fired or was cleared does nothing. *)
Definition Timer_clear (h : Timer) : M unit := λ w,
  (Return tt,
   mkWorld (self w) (delete h (timers w)) (nextTimer w) (driver w),
   [TimerClear h]).

(** *** The driver *)

(** A driver call is issued, and throws when the driver rejects it. *)
Definition driver_call (c : DriverCall) : M unit := λ w,
  match driver w with
  | true :: rest =>
      (Raise "driver", mkWorld (self w) (timers w) (nextTimer w) rest,
       [Driver c])
  | false :: rest =>
      (Return tt, mkWorld (self w) (timers w) (nextTimer w) rest, [Driver c])
  | [] => (Return tt, w, [Driver c])
  end.

Definition WiFi_connect (o : option WiFiOptions) : M unit :=
  driver_call (DriverConnect o).
Definition WiFi_disconnect : M unit := driver_call DriverDisconnect.
Definition super_close : M unit := driver_call DriverClose.
Definition super_new (o : option WiFiOptions) : M unit :=
  driver_call (DriverNew o).

Definition trace (msg : string) : M unit := emit (Trace msg).

(** [this.onNetworkChange?.(message)].  The function is the caller's code:
    the model records that it is called, and with which message, and takes
    it to return normally without calling back into the manager.  What a
    callback that throws or calls [close()] would do is not modelled. *)
Definition notify (message : WiFiMessage) : M unit :=
  m ← this;
  match onNetworkChange m with
  | Some f => emit (Callback f message)
  | None => ret tt
  end.

(** ** The methods of [WiFiConnectionManager] *)

Definition startConnectionTimer : M unit :=
  m ← this;
  h ← Timer_set ConnectionTimeoutFn (connectionTimeout m);
  assign (set_connectionTimer (Some h)).

Definition clearConnectionTimer : M unit :=
  m ← this;
  match connectionTimer m with
  | Some h => Timer_clear h;; assign (set_connectionTimer None)
  | None => ret tt
  end.

Definition clearReconnectTimer : M unit :=
  m ← this;
  match reconnectTimer m with
  | Some h => Timer_clear h;; assign (set_reconnectTimer None)
  | None => ret tt
  end.

Definition clearTimers : M unit :=
  clearConnectionTimer;; clearReconnectTimer.

Definition handleDisconnect : M unit :=
  clearConnectionTimer;;
  assign (λ m,
    set_APIndex (next_index (APIndex m) (length (accessPointConfig m))) m);;
  clearReconnectTimer;;
  m ← this;
  h ← Timer_set ReconnectFn (reconnectInterval m);
  assign (set_reconnectTimer (Some h));;
  m ← this;
  if decide (currentState m ≠ disconnect) then
    assign (set_currentState disconnect);;
    notify disconnect
  else ret tt.

(** The closure scheduled by [handleDisconnect]. *)
Definition reconnect_fn : M unit :=
  assign (set_reconnectTimer None);;
  try_catch
    (m ← this;
     WiFi_connect (array_get (accessPointConfig m) (APIndex m));;
     startConnectionTimer)
    (λ error,
     trace ("Error during reconnect:" +:+ error);;
     handleDisconnect).

(** The closure scheduled by [startConnectionTimer]. *)
Definition connection_timeout_fn : M unit :=
  clearConnectionTimer;;
  try_catch WiFi_disconnect
    (λ error, trace ("Error during forced disconnect:" +:+ error)).

Definition handleWiFiEvent (message : WiFiMessage) : M unit :=
  (if decide (message = disconnect) then handleDisconnect
   else if decide (message = gotIP) then
     clearTimers;;
     assign (set_APIndex (Num 0))
   else if decide (message = connect) then clearReconnectTimer
   else ret tt);;
  assign (set_currentState message);;
  notify message.

Definition close : M unit :=
  clearTimers;;
  try_catch WiFi_disconnect
    (λ error, trace ("Error during WiFi.disconnect:" +:+ error));;
  try_catch super_close
    (λ error, trace ("Error during super.close:" +:+ error)).

Definition ready (m : Manager) : bool :=
  bool_decide (currentState m = gotIP).

(** The field initialisers and parameter properties of the class. *)
Definition fields (accessPointConfig : list WiFiOptions)
    (onNetworkChange : option WiFiCallback)
    (reconnectInterval connectionTimeout : N) : Manager :=
  mkManager None None disconnect (Num 0) accessPointConfig onNetworkChange
    reconnectInterval connectionTimeout.

Definition default_reconnectInterval : N := 5000.
Definition default_connectionTimeout : N := 30000.

(** The host a manager is created in: no timer of the manager is scheduled
    yet. *)
Definition host (next : Timer) (outcomes : list bool) (m : Manager) : World :=
  mkWorld m ∅ next outcomes.

(** [new WiFiConnectionManager(accessPointConfig, onNetworkChange,
    reconnectInterval, connectionTimeout)].  When the result is [Raise] no
    instance exists. *)
Definition constructor (accessPointConfig : list WiFiOptions)
    (onNetworkChange : option WiFiCallback)
    (reconnectInterval connectionTimeout : N)
    (next : Timer) (outcomes : list bool)
  : Outcome unit * World * list Effect :=
  (super_new (array_get accessPointConfig (Num 0));;
   startConnectionTimer)
    (host next outcomes
       (fields accessPointConfig onNetworkChange reconnectInterval
          connectionTimeout)).

(** *** The host runs the manager *)

(** The timer service runs the callback of a timer that is due, once. *)
Definition Timer_fire (h : Timer) : M unit := λ w,
  match timers w !! h with
  | Some (f, _) =>
      (emit (TimerFired h);;
       match f with
       | ConnectionTimeoutFn => connection_timeout_fn
       | ReconnectFn => reconnect_fn
       end)
        (mkWorld (self w) (delete h (timers w)) (nextTimer w) (driver w))
  | None => (Return tt, w, [])
  end.

(** What can happen to a manager after its construction. *)
Inductive Action : Set :=
| Deliver (message : WiFiMessage)   (* the driver reports an event *)
| Expire (h : Timer)                (* a timer is due *)
| Close.                            (* the caller calls [close()] *)

Definition run (a : Action) : M unit :=
  match a with
  | Deliver message => handleWiFiEvent message
  | Expire h => Timer_fire h
  | Close => close
  end.

(** Run a sequence of actions, whatever each of them returns. *)
Fixpoint run_all (l : list Action) (w : World) : World * list Effect :=
  match l with
  | [] => (w, [])
  | a :: l' =>
      match run a w with
      | (_, w1, l1) =>
          match run_all l' w1 with
          | (w2, l2) => (w2, l1 ++ l2)
          end
      end
  end.

(** The worlds a manager can be in: after a construction that returned,
    and after any action in such a world. *)
Inductive reachable : World → Prop :=
| reachable_new cfg cb ri ct next outcomes w l :
    constructor cfg cb ri ct next outcomes = (Return tt, w, l) →
    reachable w
| reachable_run a w o w' l :
    reachable w →
    run a w = (o, w', l) →
    reachable w'.

(** The notifications the caller's callback received. *)
Definition notifications (l : list Effect) : list WiFiMessage :=
  omap (λ e, match e with Callback _ m => Some m | _ => None end) l.

(** The calls the driver received. *)
Definition driver_calls (l : list Effect) : list DriverCall :=
  omap (λ e, match e with Driver c => Some c | _ => None end) l.

(** The timers scheduled, with their callbacks. *)
Definition timers_set (l : list Effect) : list (Timer * TimerCallback) :=
  omap (λ e, match e with TimerSet h f _ => Some (h, f) | _ => None end) l.


(** ** Vocabulary of the statements *)

(** The timer service after [Timer.clear] of the handle a field holds. *)
Definition cancel (field : option Timer) (tm : gmap Timer (TimerCallback * N))
  : gmap Timer (TimerCallback * N) :=
  match field with
  | Some h => delete h tm
  | None => tm
  end.

(** The [Timer.clear] call a guarded clear of a field performs. *)
Definition clears (field : option Timer) : list Effect :=
  match field with
  | Some h => [TimerClear h]
  | None => []
  end.

(** The call [onNetworkChange?.(m)] performs. *)
Definition forwards (cb : option WiFiCallback) (m : WiFiMessage)
  : list Effect :=
  match cb with
  | Some f => [Callback f m]
  | None => []
  end.

(** Does the next driver call throw? *)
Definition rejects (outcomes : list bool) : bool :=
  match outcomes with
  | true :: _ => true
  | _ => false
  end.

(** The three parts of what a call gives back. *)
Definition result {A} (r : Outcome A * World * list Effect) : Outcome A :=
  r.1.1.
Definition world {A} (r : Outcome A * World * list Effect) : World := r.1.2.
Definition effects {A} (r : Outcome A * World * list Effect) : list Effect :=
  r.2.

(** Every live timer callback of the manager is held by the field of its
    role, and the two fields are never both set. *)
Definition timers_owned (w : World) : Prop :=
  match connectionTimer (self w), reconnectTimer (self w) with
  | None, None => timers w = ∅
  | Some h, None =>
      timers w = {[ h := (ConnectionTimeoutFn, connectionTimeout (self w)) ]}
  | None, Some h =>
      timers w = {[ h := (ReconnectFn, reconnectInterval (self w)) ]}
  | Some _, Some _ => False
  end.

(** Replaying the effects of a call on the live timers: no [Timer.set] for
    a callback while a timer of that callback is live. *)
Fixpoint exclusive (live : gmap Timer (TimerCallback * N)) (l : list Effect)
  : Prop :=
  match l with
  | [] => True
  | TimerSet h f ms :: l' =>
      (∀ h' v, live !! h' = Some v → v.1 ≠ f) ∧
      exclusive (<[h := (f, ms)]> live) l'
  | TimerClear h :: l' => exclusive (delete h live) l'
  | TimerFired h :: l' => exclusive (delete h live) l'
  | _ :: l' => exclusive live l'
  end.

(** The three messages without a branch of their own. *)
Definition passive (m : WiFiMessage) : bool :=
  match m with
  | lostIP | station_connect | station_disconnect => true
  | _ => false
  end.

(** What [handleWiFiEvent] does with a message without a branch of its
    own: it stores the message as the current state and forwards it. *)
Definition overwrites_state (m : WiFiMessage) (w : World) : Prop :=
  let r := run (Deliver m) w in
  result r = Return tt ∧
  effects r = forwards (onNetworkChange (self w)) m ∧
  currentState (self (world r)) = m ∧
  ready (self (world r)) = false ∧
  APIndex (self (world r)) = APIndex (self w) ∧
  connectionTimer (self (world r)) = connectionTimer (self w) ∧
  reconnectTimer (self (world r)) = reconnectTimer (self w) ∧
  timers (world r) = timers w ∧
  nextTimer (world r) = nextTimer w ∧
  driver (world r) = driver w.

(** The handles [Timer.clear] was called on. *)
Definition timers_cleared (l : list Effect) : list Timer :=
  omap (λ e, match e with TimerClear h => Some h | _ => None end) l.

(** An event is discarded when handling it changes nothing and does
    nothing. *)
Definition discarded (m : WiFiMessage) (w : World) : Prop :=
  run (Deliver m) w = (Return tt, w, []).

(** The cursor is an index of the candidate list. *)
Definition cursor_in_range (w : World) : Prop :=
  match APIndex (self w) with
  | Num i => i < length (accessPointConfig (self w))
  | NaN => False
  end.

(** The cursor after each of [0], [1], ..., [n] [disconnect] events. *)
Definition visited (w : World) (n : nat) : list Number :=
  (λ k, APIndex (self (run_all (replicate k (Deliver disconnect)) w).1))
    <$> seq 0 (S n).

(** The handles the two timer fields hold. *)
Definition held (m : Manager) : list Timer :=
  option_list (connectionTimer m) ++ option_list (reconnectTimer m).

(** *** Concrete managers *)

Definition home : WiFiOptions := {| ssid := "home"; password := "secret" |}.
Definition office : WiFiOptions := {| ssid := "office"; password := "guest" |}.

(** [new WiFiConnectionManager([home, office], cb)] with the default
    durations, on a driver that accepts every call. *)
Definition boot : Outcome unit * World * list Effect :=
  constructor [home; office] (Some 0) default_reconnectInterval
    default_connectionTimeout 0 [].

Definition started : World := world boot.

(** The same manager once the driver has reported an address. *)
Definition online : World := world (run (Deliver gotIP) started).

(** The same manager after a first [disconnect] event. *)
Definition retrying : World := world (run (Deliver disconnect) started).

(** *** Further vocabulary *)

(** The messages passed to [trace]. *)
Definition traces (l : list Effect) : list string :=
  omap (λ e, match e with Trace msg => Some msg | _ => None end) l.

(** How many of the driver's answers are rejections. *)
Definition rejections (outcomes : list bool) : nat :=
  length (filter (λ b, b = true) outcomes).

(** The delay the manager configures for each of its two callbacks. *)
Definition delay (m : Manager) (f : TimerCallback) : N :=
  match f with
  | ConnectionTimeoutFn => connectionTimeout m
  | ReconnectFn => reconnectInterval m
  end.

(** The timers scheduled, with their delays. *)
Definition timers_delays (l : list Effect) : list (TimerCallback * N) :=
  omap (λ e, match e with TimerSet _ f ms => Some (f, ms) | _ => None end) l.

(** The messages an action may pass to the caller's callback. *)
Definition may_notify (a : Action) (m : WiFiMessage) : Prop :=
  match a with
  | Deliver message => m = message
  | Expire _ => m = disconnect
  | Close => False
  end.

(** Let the reconnect timer the manager holds expire, [k] times in a
    row. *)
Fixpoint retries (k : nat) (w : World) : World * list Effect :=
  match k with
  | 0 => (w, [])
  | S k' =>
      match reconnectTimer (self w) with
      | Some h =>
          match run (Expire h) w with
          | (_, w1, l1) =>
              match retries k' w1 with
              | (w2, l2) => (w2, l1 ++ l2)
              end
          end
      | None => (w, [])
      end
  end.

(** A manager constructed with an empty candidate list, after a first
    [disconnect] event. *)
Definition stray : World :=
  world (run (Deliver disconnect)
           (world (constructor [] None default_reconnectInterval
                     default_connectionTimeout 0 []))).

(** A manager with two candidates after a first [disconnect] event, on a
    driver that accepts the construction and rejects the next three
    calls. *)
Definition flaky_boot : Outcome unit * World * list Effect :=
  constructor [home; office] (Some 0) default_reconnectInterval
    default_connectionTimeout 0 [false; true; true; true].

Definition flaky : World := world (run (Deliver disconnect) (world flaky_boot)).

(** ** Equations of the methods *)

Ltac exec :=
  cbv -[delete insert lookup empty singletonM Nat.modulo Nat.add length
        String.append].

Ltac open_world w :=
  destruct w as [[rt ct st idx cfg cb ri cto] tm nx dr].

Lemma clearTimers_eq w :
  clearTimers w =
  (Return tt,
   mkWorld (set_connectionTimer None (set_reconnectTimer None (self w)))
     (cancel (reconnectTimer (self w))
        (cancel (connectionTimer (self w)) (timers w)))
     (nextTimer w) (driver w),
   clears (connectionTimer (self w)) ++ clears (reconnectTimer (self w))).
Proof. open_world w. destruct ct, rt; reflexivity. Qed.

Lemma handleDisconnect_eq w :
  handleDisconnect w =
  (Return tt,
   mkWorld
     (mkManager (Some (nextTimer w)) None disconnect
        (next_index (APIndex (self w)) (length (accessPointConfig (self w))))
        (accessPointConfig (self w)) (onNetworkChange (self w))
        (reconnectInterval (self w)) (connectionTimeout (self w)))
     (<[nextTimer w := (ReconnectFn, reconnectInterval (self w))]>
        (cancel (reconnectTimer (self w))
           (cancel (connectionTimer (self w)) (timers w))))
     (S (nextTimer w)) (driver w),
   clears (connectionTimer (self w)) ++ clears (reconnectTimer (self w)) ++
   [TimerSet (nextTimer w) ReconnectFn (reconnectInterval (self w))] ++
   (if decide (currentState (self w) = disconnect) then []
    else forwards (onNetworkChange (self w)) disconnect)).
Proof. open_world w. destruct ct, rt, cb, st; reflexivity. Qed.

Lemma handleWiFiEvent_disconnect_eq w :
  handleWiFiEvent disconnect w =
  (Return tt, world (handleDisconnect w),
   effects (handleDisconnect w) ++
   forwards (onNetworkChange (self w)) disconnect).
Proof.
  rewrite handleDisconnect_eq. open_world w.
  destruct ct, rt, cb, st; reflexivity.
Qed.

Lemma handleWiFiEvent_gotIP_eq w :
  handleWiFiEvent gotIP w =
  (Return tt,
   mkWorld
     (mkManager None None gotIP (Num 0)
        (accessPointConfig (self w)) (onNetworkChange (self w))
        (reconnectInterval (self w)) (connectionTimeout (self w)))
     (cancel (reconnectTimer (self w))
        (cancel (connectionTimer (self w)) (timers w)))
     (nextTimer w) (driver w),
   clears (connectionTimer (self w)) ++ clears (reconnectTimer (self w)) ++
   forwards (onNetworkChange (self w)) gotIP).
Proof. open_world w. destruct ct, rt, cb; reflexivity. Qed.

Lemma handleWiFiEvent_connect_eq w :
  handleWiFiEvent connect w =
  (Return tt,
   mkWorld (set_currentState connect (set_reconnectTimer None (self w)))
     (cancel (reconnectTimer (self w)) (timers w))
     (nextTimer w) (driver w),
   clears (reconnectTimer (self w)) ++
   forwards (onNetworkChange (self w)) connect).
Proof. open_world w. destruct rt, cb; reflexivity. Qed.

Lemma handleWiFiEvent_passive_eq m w :
  passive m = true →
  handleWiFiEvent m w =
  (Return tt, with_self (set_currentState m) w,
   forwards (onNetworkChange (self w)) m).
Proof.
  intros Hm. open_world w. destruct m; try discriminate Hm;
    destruct cb; reflexivity.
Qed.

Lemma driver_call_eq c w :
  driver_call c w =
  (if rejects (driver w) then Raise "driver" else Return tt,
   mkWorld (self w) (timers w) (nextTimer w) (drop 1 (driver w)),
   [Driver c]).
Proof. open_world w. destruct dr as [|[] dr]; reflexivity. Qed.

Lemma close_eq w :
  close w =
  (Return tt,
   mkWorld (set_connectionTimer None (set_reconnectTimer None (self w)))
     (cancel (reconnectTimer (self w))
        (cancel (connectionTimer (self w)) (timers w)))
     (nextTimer w) (drop 2 (driver w)),
   clears (connectionTimer (self w)) ++ clears (reconnectTimer (self w)) ++
   [Driver DriverDisconnect] ++
   (if rejects (driver w)
    then [Trace "Error during WiFi.disconnect:driver"] else []) ++
   [Driver DriverClose] ++
   (if rejects (drop 1 (driver w))
    then [Trace "Error during super.close:driver"] else [])).
Proof.
  open_world w.
  destruct ct, rt, dr as [|[] [|[] dr]]; reflexivity.
Qed.

Lemma connection_timeout_fn_eq w :
  connection_timeout_fn w =
  (Return tt,
   mkWorld (set_connectionTimer None (self w))
     (cancel (connectionTimer (self w)) (timers w))
     (nextTimer w) (drop 1 (driver w)),
   clears (connectionTimer (self w)) ++ [Driver DriverDisconnect] ++
   (if rejects (driver w)
    then [Trace "Error during forced disconnect:driver"] else [])).
Proof. open_world w. destruct ct, dr as [|[] dr]; reflexivity. Qed.

Lemma reconnect_fn_eq w :
  reconnect_fn w =
  let candidate :=
    array_get (accessPointConfig (self w)) (APIndex (self w)) in
  if rejects (driver w) then
    let w1 :=
      mkWorld (set_reconnectTimer None (self w)) (timers w) (nextTimer w)
        (drop 1 (driver w)) in
    (Return tt, world (handleDisconnect w1),
     [Driver (DriverConnect candidate);
      Trace "Error during reconnect:driver"] ++
     effects (handleDisconnect w1))
  else
    (Return tt,
     mkWorld
       (set_connectionTimer (Some (nextTimer w))
          (set_reconnectTimer None (self w)))
       (<[nextTimer w := (ConnectionTimeoutFn, connectionTimeout (self w))]>
          (timers w))
       (S (nextTimer w)) (drop 1 (driver w)),
     [Driver (DriverConnect candidate);
      TimerSet (nextTimer w) ConnectionTimeoutFn
        (connectionTimeout (self w))]).
Proof.
  open_world w.
  destruct dr as [|[] dr]; try reflexivity.
  cbn zeta. unfold rejects. rewrite handleDisconnect_eq.
  destruct ct, cb, st; reflexivity.
Qed.

Lemma Timer_fire_eq h w :
  Timer_fire h w =
  match timers w !! h with
  | Some (f, _) =>
      let w1 :=
        mkWorld (self w) (delete h (timers w)) (nextTimer w) (driver w) in
      let r :=
        match f with
        | ConnectionTimeoutFn => connection_timeout_fn w1
        | ReconnectFn => reconnect_fn w1
        end in
      (result r, world r, TimerFired h :: effects r)
  | None => (Return tt, w, [])
  end.
Proof.
  unfold Timer_fire. destruct (timers w !! h) as [[f ms]|]; [|done].
  unfold mbind, M_bind, bind, emit.
  destruct f;
    match goal with |- context [?f ?w] =>
      match type of (f w) with (_ * _ * _)%type =>
        destruct (f w) as [[[] ?] ?] eqn:E end end; reflexivity.
Qed.

(** ** Invariants of the reachable worlds *)

Lemma handleWiFiEvent_returns m w : result (handleWiFiEvent m w) = Return tt.
Proof.
  destruct m;
    [ rewrite handleWiFiEvent_gotIP_eq
    | rewrite handleWiFiEvent_passive_eq by done
    | rewrite handleWiFiEvent_connect_eq
    | rewrite handleWiFiEvent_disconnect_eq
    | rewrite handleWiFiEvent_passive_eq by done
    | rewrite handleWiFiEvent_passive_eq by done ]; reflexivity.
Qed.

Lemma reconnect_fn_returns w : result (reconnect_fn w) = Return tt.
Proof. rewrite reconnect_fn_eq. cbn zeta. by destruct (rejects _). Qed.

Lemma Timer_fire_returns h w : result (Timer_fire h w) = Return tt.
Proof.
  rewrite Timer_fire_eq. destruct (timers w !! h) as [[[] ms]|]; cbn zeta;
    [by rewrite connection_timeout_fn_eq | apply reconnect_fn_returns | done].
Qed.

Lemma run_returns a w : result (run a w) = Return tt.
Proof.
  destruct a as [m|h|]; cbn [run];
    [apply handleWiFiEvent_returns | apply Timer_fire_returns
    | by rewrite close_eq].
Qed.

Ltac map_simpl :=
  repeat first
    [ rewrite delete_singleton_eq
    | rewrite delete_empty
    | rewrite insert_empty
    | rewrite lookup_empty
    | rewrite lookup_singleton_eq ].

Lemma timers_owned_handleDisconnect w :
  timers_owned w → timers_owned (world (handleDisconnect w)).
Proof.
  rewrite handleDisconnect_eq. open_world w. unfold timers_owned.
  cbn. destruct ct, rt; intros H; try done; subst tm; cbn; by map_simpl.
Qed.

Lemma timers_owned_handleWiFiEvent m w :
  timers_owned w → timers_owned (world (handleWiFiEvent m w)).
Proof.
  destruct m;
    [ rewrite handleWiFiEvent_gotIP_eq
    | rewrite handleWiFiEvent_passive_eq by done
    | rewrite handleWiFiEvent_connect_eq
    | rewrite handleWiFiEvent_disconnect_eq; apply timers_owned_handleDisconnect
    | rewrite handleWiFiEvent_passive_eq by done
    | rewrite handleWiFiEvent_passive_eq by done ];
    open_world w; unfold timers_owned; cbn;
    destruct ct, rt; intros H; try done; subst tm; cbn; by map_simpl.
Qed.

Lemma timers_owned_close w : timers_owned w → timers_owned (world (close w)).
Proof.
  rewrite close_eq. open_world w. unfold timers_owned. cbn.
  destruct ct, rt; intros H; try done; subst tm; cbn; by map_simpl.
Qed.

Lemma timers_owned_fired h f ms w :
  timers_owned w →
  timers w !! h = Some (f, ms) →
  timers w = {[ h := (f, ms) ]} ∧
  match f with
  | ConnectionTimeoutFn =>
      connectionTimer (self w) = Some h ∧ reconnectTimer (self w) = None ∧
      ms = connectionTimeout (self w)
  | ReconnectFn =>
      reconnectTimer (self w) = Some h ∧ connectionTimer (self w) = None ∧
      ms = reconnectInterval (self w)
  end.
Proof.
  open_world w. unfold timers_owned. cbn.
  destruct ct as [h0|], rt as [h1|]; intros H; try done; subst tm;
    intros Hl; try (by rewrite lookup_empty in Hl);
    apply lookup_singleton_Some in Hl as [-> Hv]; by simplify_eq.
Qed.

Lemma timers_owned_Timer_fire h w :
  timers_owned w → timers_owned (world (Timer_fire h w)).
Proof.
  intros Hw. rewrite Timer_fire_eq.
  destruct (timers w !! h) as [[f ms]|] eqn:Hl; [|done].
  destruct (timers_owned_fired _ _ _ _ Hw Hl) as [Htm Hf].
  cbn zeta. destruct f.
  - destruct Hf as (Hc & Hr & _). rewrite connection_timeout_fn_eq.
    open_world w. cbn in *. subst. unfold timers_owned. cbn. by map_simpl.
  - destruct Hf as (Hr & Hc & _). rewrite reconnect_fn_eq. cbn zeta.
    destruct (rejects _).
    + apply timers_owned_handleDisconnect.
      open_world w. cbn in *. subst. unfold timers_owned. cbn. by map_simpl.
    + open_world w. cbn in *. subst. unfold timers_owned. cbn. by map_simpl.
Qed.

Lemma timers_owned_run a w : timers_owned w → timers_owned (world (run a w)).
Proof.
  destruct a as [m|h|]; cbn [run];
    [apply timers_owned_handleWiFiEvent | apply timers_owned_Timer_fire
    | apply timers_owned_close].
Qed.

Lemma constructor_eq cfg cb ri cto next outcomes :
  constructor cfg cb ri cto next outcomes =
  if rejects outcomes then
    (Raise "driver", host next (drop 1 outcomes) (fields cfg cb ri cto),
     [Driver (DriverNew (cfg !! 0))])
  else
    (Return tt,
     mkWorld (set_connectionTimer (Some next) (fields cfg cb ri cto))
       {[ next := (ConnectionTimeoutFn, cto) ]} (S next) (drop 1 outcomes),
     [Driver (DriverNew (cfg !! 0)); TimerSet next ConnectionTimeoutFn cto]).
Proof.
  unfold constructor, host. destruct outcomes as [|[] outcomes];
    exec; by map_simpl.
Qed.

Lemma reachable_timers_owned w : reachable w → timers_owned w.
Proof.
  induction 1 as [cfg cb ri cto next outcomes w l Hnew|a w o w' l _ IH Hrun].
  - rewrite constructor_eq in Hnew. destruct (rejects outcomes); [done|].
    by simplify_eq.
  - replace w' with (world (run a w)) by by rewrite Hrun.
    by apply timers_owned_run.
Qed.

Lemma exclusive_handleDisconnect w :
  timers_owned w → exclusive (timers w) (effects (handleDisconnect w)).
Proof.
  rewrite handleDisconnect_eq. open_world w. unfold timers_owned. cbn.
  destruct ct, rt; intros H; try done; subst tm; cbn; map_simpl;
    (split; [by intros ? ?; rewrite lookup_empty|]);
    destruct (decide _), cb; done.
Qed.

Lemma exclusive_app live l1 l2 :
  (∀ e, e ∈ l2 → match e with Callback _ _ | Trace _ | Driver _ => True
                 | _ => False end) →
  exclusive live l1 → exclusive live (l1 ++ l2).
Proof.
  intros Hl2. revert live.
  induction l1 as [|e l1 IH]; intros live; cbn.
  - intros _. induction l2 as [|e l2 IH2]; [done|].
    assert (He := Hl2 e (list_elem_of_here _ _)).
    destruct e; try done; cbn; apply IH2; intros e' He';
      apply Hl2; by apply list_elem_of_further.
  - destruct e; cbn; try apply IH. intros [? ?]. split; [done|]. by apply IH.
Qed.

Lemma forwards_quiet cb m e :
  e ∈ forwards cb m →
  match e with Callback _ _ | Trace _ | Driver _ => True | _ => False end.
Proof.
  destruct cb; cbn; [|by intros ?%elem_of_nil].
  by intros ->%list_elem_of_singleton.
Qed.

Lemma exclusive_run a w :
  timers_owned w → exclusive (timers w) (effects (run a w)).
Proof.
  intros Hw. destruct a as [m|h|]; cbn [run].
  - destruct m;
      [ rewrite handleWiFiEvent_gotIP_eq
      | rewrite handleWiFiEvent_passive_eq by done
      | rewrite handleWiFiEvent_connect_eq
      | rewrite handleWiFiEvent_disconnect_eq
      | rewrite handleWiFiEvent_passive_eq by done
      | rewrite handleWiFiEvent_passive_eq by done ];
      try (open_world w; destruct ct, rt, cb; done).
    apply exclusive_app; [apply forwards_quiet|].
    by apply exclusive_handleDisconnect.
  - rewrite Timer_fire_eq.
    destruct (timers w !! h) as [[f ms]|] eqn:Hl; [|done].
    destruct (timers_owned_fired _ _ _ _ Hw Hl) as [Htm Hf].
    cbn zeta. destruct f.
    + destruct Hf as (Hc & Hr & _). rewrite connection_timeout_fn_eq.
      open_world w. cbn in *. subst. cbn. by destruct (rejects dr).
    + destruct Hf as (Hr & Hc & _). rewrite reconnect_fn_eq. cbn zeta.
      open_world w. cbn in *. subst. destruct (rejects dr); cbn.
      * map_simpl.
        match goal with |- exclusive _ (effects (handleDisconnect ?w1)) =>
          apply (exclusive_handleDisconnect w1) end.
        unfold timers_owned. cbn. done.
      * map_simpl. split; [by intros ? ?; rewrite lookup_empty|done].
  - rewrite close_eq. open_world w. cbn.
    destruct ct, rt, (rejects dr), (rejects (drop 1 dr)); done.
Qed.

(** ** The concrete managers are reachable *)

Lemma started_reachable : reachable started.
Proof.
  apply (reachable_new [home; office] (Some 0) default_reconnectInterval
           default_connectionTimeout 0 [] started (effects boot)).
  reflexivity.
Defined.

(** ** Redundant [disconnect] notifications *)

(** C1.  The code forwards [disconnect] on every [disconnect] event: once
    when the manager already is in the [disconnect] state, twice otherwise.
    Two consecutive [disconnect] events therefore reach the caller's
    callback two or three times, never exactly once. *)
Theorem repeated_disconnect_is_forwarded w :
  notifications (effects (run (Deliver disconnect) w)) =
    match onNetworkChange (self w) with
    | None => []
    | Some _ =>
        if decide (currentState (self w) = disconnect) then [disconnect]
        else [disconnect; disconnect]
    end ∧
  currentState (self (world (run (Deliver disconnect) w))) = disconnect ∧
  notifications (run_all [Deliver disconnect; Deliver disconnect] w).2 =
    match onNetworkChange (self w) with
    | None => []
    | Some _ =>
        if decide (currentState (self w) = disconnect)
        then [disconnect; disconnect]
        else [disconnect; disconnect; disconnect]
    end.
Proof.
  cbn [run run_all].
  rewrite (handleWiFiEvent_disconnect_eq w). cbv iota beta.
  rewrite handleWiFiEvent_disconnect_eq, !handleDisconnect_eq.
  open_world w. cbn.
  destruct ct, rt, cb, (decide (st = disconnect)); done.
Qed.

(** At the manager just constructed, which starts in the [disconnect]
    state, two [disconnect] events give two notifications; at a connected
    manager they give three. *)
Example two_disconnects_two_notifications :
  notifications (run_all [Deliver disconnect; Deliver disconnect] started).2 =
    [disconnect; disconnect] ∧
  notifications (run_all [Deliver disconnect; Deliver disconnect] online).2 =
    [disconnect; disconnect; disconnect].
Proof. split; reflexivity. Qed.

(** ** Station events *)

Lemma passive_overwrites_state m w :
  passive m = true → overwrites_state m w.
Proof.
  intros Hm. unfold overwrites_state. cbn [run].
  rewrite handleWiFiEvent_passive_eq by done.
  open_world w. by destruct m.
Qed.

(** C2.  A [station_connect] or [station_disconnect] event is forwarded and
    leaves the cursor and both timer handles alone, but the code also
    stores it as the current state: [ready] is false afterwards, whatever
    it was before. *)
Theorem station_event_overwrites_state w :
  overwrites_state station_connect w ∧
  overwrites_state station_disconnect w.
Proof. split; by apply passive_overwrites_state. Qed.

(** A connected manager is not [ready] any more after a station event. *)
Example station_connect_clears_ready :
  ready (self online) = true ∧
  ready (self (world (run (Deliver station_connect) online))) = false ∧
  ready (self (world (run (Deliver station_disconnect) online))) = false.
Proof. repeat split; reflexivity. Qed.

(** ** [close()] *)

Lemma driver_calls_close w :
  driver_calls (effects (close w)) = [DriverDisconnect; DriverClose].
Proof.
  rewrite close_eq. open_world w. cbn.
  by destruct ct, rt, (rejects dr), (rejects (drop 1 dr)).
Qed.

(** C3, as stated, fails: a [gotIP] event delivered after [close()] is
    handled, the callback is invoked and [ready] becomes true; a
    [disconnect] event delivered after [close()] schedules a timer. *)
Lemma event_after_close_is_handled :
  let closed := world (run Close started) in
  ¬ discarded gotIP closed ∧
  ready (self (world (run (Deliver gotIP) closed))) = true ∧
  notifications (effects (run (Deliver gotIP) closed)) = [gotIP] ∧
  timers_set (effects (run (Deliver disconnect) closed)) = [(1, ReconnectFn)].
Proof.
  cbn zeta. split; [|repeat split; reflexivity].
  unfold discarded. intros H.
  apply (f_equal (λ r, notifications (effects r))) in H.
  vm_compute in H. discriminate H.
Qed.

(** C3, amended.  [close()] clears both timer handles and leaves the
    current state and the cursor as they are; the manager keeps no record
    of having been closed, and an event delivered afterwards is handled as
    at any other time: it becomes the current state and is forwarded to the
    callback, [gotIP] makes [ready] true, and [disconnect] schedules a
    reconnect timer. *)
Theorem close_does_not_stop_events w m :
  let closed := world (run Close w) in
  let r := run (Deliver m) closed in
  connectionTimer (self closed) = None ∧
  reconnectTimer (self closed) = None ∧
  currentState (self closed) = currentState (self w) ∧
  APIndex (self closed) = APIndex (self w) ∧
  result r = Return tt ∧
  currentState (self (world r)) = m ∧
  ready (self (world r)) = bool_decide (m = gotIP) ∧
  notifications (effects r) =
    match onNetworkChange (self w) with
    | None => []
    | Some _ =>
        if decide (m = disconnect ∧ currentState (self w) ≠ disconnect)
        then [m; m] else [m]
    end ∧
  timers_set (effects r) =
    (if decide (m = disconnect) then [(nextTimer w, ReconnectFn)] else []).
Proof.
  cbn zeta. cbn [run]. rewrite close_eq. unfold world at 1 2 3 4. cbn [fst snd].
  destruct m;
    [ rewrite handleWiFiEvent_gotIP_eq
    | rewrite handleWiFiEvent_passive_eq by done
    | rewrite handleWiFiEvent_connect_eq
    | rewrite handleWiFiEvent_disconnect_eq, handleDisconnect_eq
    | rewrite handleWiFiEvent_passive_eq by done
    | rewrite handleWiFiEvent_passive_eq by done ];
    open_world w; destruct cb, st; done.
Qed.

(** C4, as stated, fails: two calls of [close()] issue two driver
    disconnect requests and two driver release requests. *)
Lemma close_twice_calls_driver_twice :
  driver_calls (run_all [Close; Close] started).2 =
    [DriverDisconnect; DriverClose; DriverDisconnect; DriverClose] ∧
  ¬ length (driver_calls (run_all [Close; Close] started).2) ≤ 2.
Proof. split; [reflexivity|]. vm_compute. lia. Qed.

(** C4, amended.  [close()] returns normally in every state and whatever
    the driver answers.  After the first call both timer handles are empty
    and the timers they held are cancelled; a second call changes no field
    and no timer and calls [Timer.clear] for nothing.  Every call issues one
    driver disconnect request and one driver release request. *)
Theorem close_idempotent_on_manager w :
  let r1 := close w in
  let r2 := close (world r1) in
  result r1 = Return tt ∧
  result r2 = Return tt ∧
  connectionTimer (self (world r1)) = None ∧
  reconnectTimer (self (world r1)) = None ∧
  timers (world r1) =
    cancel (reconnectTimer (self w))
      (cancel (connectionTimer (self w)) (timers w)) ∧
  self (world r2) = self (world r1) ∧
  timers (world r2) = timers (world r1) ∧
  timers_cleared (effects r2) = [] ∧
  timers_set (effects r1 ++ effects r2) = [] ∧
  driver_calls (effects r1) = [DriverDisconnect; DriverClose] ∧
  driver_calls (effects r2) = [DriverDisconnect; DriverClose].
Proof.
  cbn zeta. rewrite !driver_calls_close. rewrite !close_eq.
  open_world w. cbn.
  destruct ct, rt, (rejects dr), (rejects (drop 1 dr)),
    (rejects (drop 2 dr)), (rejects (drop 1 (drop 2 dr))); done.
Qed.

(** ** Construction *)

(** C5, as stated, fails: with an empty list the constructor still calls
    the driver's constructor, with no candidate; when that call returns the
    instance is built and its connection timer runs, and when it throws a
    driver call has been issued all the same. *)
Lemma empty_list_is_passed_to_driver :
  let accepted := constructor [] None 5000 30000 0 [] in
  let rejected := constructor [] None 5000 30000 0 [true] in
  result accepted = Return tt ∧
  timers_set (effects accepted) = [(0, ConnectionTimeoutFn)] ∧
  driver_calls (effects accepted) = [DriverNew None] ∧
  driver_calls (effects rejected) = [DriverNew None].
Proof. repeat split; reflexivity. Qed.

(** C5, amended.  The constructor does not inspect the candidate list: it
    always hands the first candidate, absent for an empty list, to the
    driver's constructor.  Construction fails exactly when that call
    throws, and then no timer has been started; otherwise the connection
    timer is started, for an empty list too. *)
Theorem constructor_defers_to_driver cfg cb ri cto next outcomes :
  let r := constructor cfg cb ri cto next outcomes in
  driver_calls (effects r) = [DriverNew (cfg !! 0)] ∧
  result r = (if rejects outcomes then Raise "driver" else Return tt) ∧
  timers_set (effects r) =
    (if rejects outcomes then [] else [(next, ConnectionTimeoutFn)]) ∧
  timers (world r) =
    (if rejects outcomes then ∅
     else {[ next := (ConnectionTimeoutFn, cto) ]}).
Proof.
  cbn zeta. rewrite constructor_eq. by destruct (rejects outcomes).
Qed.

(** ** The candidate cursor *)

Lemma cursor_in_range_handleDisconnect w :
  cursor_in_range w → cursor_in_range (world (handleDisconnect w)).
Proof.
  rewrite handleDisconnect_eq. open_world w. unfold cursor_in_range. cbn.
  destruct idx as [i|]; [|done]. intros Hi. cbn.
  case_decide; [lia|]. by apply Nat.mod_upper_bound.
Qed.

Lemma cursor_in_range_run a w :
  cursor_in_range w → cursor_in_range (world (run a w)).
Proof.
  destruct a as [m|h|]; cbn [run].
  - destruct m;
      [ rewrite handleWiFiEvent_gotIP_eq
      | rewrite handleWiFiEvent_passive_eq by done
      | rewrite handleWiFiEvent_connect_eq
      | rewrite handleWiFiEvent_disconnect_eq;
        apply cursor_in_range_handleDisconnect
      | rewrite handleWiFiEvent_passive_eq by done
      | rewrite handleWiFiEvent_passive_eq by done ];
      open_world w; unfold cursor_in_range; cbn; try done.
    destruct idx; [lia|done].
  - rewrite Timer_fire_eq. destruct (timers w !! h) as [[[] ms]|]; cbn zeta;
      [rewrite connection_timeout_fn_eq; by open_world w| |done].
    rewrite reconnect_fn_eq. cbn zeta. destruct (rejects _) eqn:E.
    + intros Hw. apply cursor_in_range_handleDisconnect. by open_world w.
    + by open_world w.
  - rewrite close_eq. by open_world w.
Qed.

Lemma reachable_cursor_in_range w :
  reachable w → accessPointConfig (self w) ≠ [] → cursor_in_range w.
Proof.
  induction 1 as [cfg cb ri cto next outcomes w l Hnew|a w o w' l _ IH Hrun].
  - rewrite constructor_eq in Hnew. destruct (rejects outcomes); [done|].
    simplify_eq. unfold cursor_in_range. cbn. destruct cfg; [done|cbn; lia].
  - replace w' with (world (run a w)) by by rewrite Hrun.
    intros Hcfg. apply cursor_in_range_run, IH.
    assert (Hsame : accessPointConfig (self (world (run a w))) =
                    accessPointConfig (self w)); [|by rewrite <- Hsame].
    clear. destruct a as [m|h|]; cbn [run].
    + destruct m;
        [ rewrite handleWiFiEvent_gotIP_eq
        | rewrite handleWiFiEvent_passive_eq by done
        | rewrite handleWiFiEvent_connect_eq
        | rewrite handleWiFiEvent_disconnect_eq, handleDisconnect_eq
        | rewrite handleWiFiEvent_passive_eq by done
        | rewrite handleWiFiEvent_passive_eq by done ]; by open_world w.
    + rewrite Timer_fire_eq. destruct (timers w !! h) as [[[] ms]|]; cbn zeta;
        [rewrite connection_timeout_fn_eq; by open_world w| |done].
      rewrite reconnect_fn_eq. cbn zeta. destruct (rejects _);
        [rewrite handleDisconnect_eq|]; by open_world w.
    + rewrite close_eq. by open_world w.
Qed.

Lemma disconnect_advances w i :
  APIndex (self w) = Num i →
  accessPointConfig (self w) ≠ [] →
  APIndex (self (world (run (Deliver disconnect) w))) =
    Num ((i + 1) mod length (accessPointConfig (self w))) ∧
  accessPointConfig (self (world (run (Deliver disconnect) w))) =
    accessPointConfig (self w).
Proof.
  cbn [run]. rewrite handleWiFiEvent_disconnect_eq, handleDisconnect_eq.
  open_world w. cbn. intros -> Hcfg. cbn. case_decide; [|done].
  by destruct cfg.
Qed.

Lemma disconnects_advance k : ∀ w i,
  APIndex (self w) = Num i →
  accessPointConfig (self w) ≠ [] →
  i < length (accessPointConfig (self w)) →
  APIndex (self (run_all (replicate k (Deliver disconnect)) w).1) =
    Num ((i + k) mod length (accessPointConfig (self w))).
Proof.
  induction k as [|k IH]; intros w i Hi Hcfg Hlt.
  - cbn. rewrite Nat.add_0_r, Nat.mod_small by done. done.
  - cbn [replicate run_all].
    destruct (disconnect_advances w i Hi Hcfg) as [Hi' Hcfg'].
    destruct (run (Deliver disconnect) w) as [[o w1] l1]. cbn in Hi', Hcfg'.
    specialize (IH w1 _ Hi').
    destruct (run_all _ w1) as [w2 l2]. cbn in *.
    rewrite Hcfg' in IH. rewrite IH; [|done|].
    + f_equal. rewrite Nat.Div0.add_mod_idemp_l. f_equal. lia.
    + apply Nat.mod_upper_bound. by destruct (accessPointConfig (self w)).
Qed.

(** C6, as stated, fails: the constructor accepts an empty candidate
    list, and the manager it builds is reachable with a cursor that is no
    index of the list, 0 of a list of length 0; at the first [disconnect]
    event the remainder by that length leaves [NaN], which is no integer
    at all. *)
Lemma cursor_leaves_range_on_empty_list :
  let w :=
    world (constructor [] None default_reconnectInterval
             default_connectionTimeout 0 []) in
  reachable w ∧
  APIndex (self w) = Num 0 ∧
  length (accessPointConfig (self w)) = 0 ∧
  ¬ cursor_in_range w ∧
  reachable (world (run (Deliver disconnect) w)) ∧
  APIndex (self (world (run (Deliver disconnect) w))) = NaN ∧
  ¬ cursor_in_range (world (run (Deliver disconnect) w)).
Proof.
  cbn zeta.
  assert (Hw : reachable
    (world (constructor [] None default_reconnectInterval
              default_connectionTimeout 0 []))).
  { apply (reachable_new [] None default_reconnectInterval
             default_connectionTimeout 0 [] _
             (effects (constructor [] None default_reconnectInterval
                         default_connectionTimeout 0 []))).
    reflexivity. }
  split_and!; try reflexivity; try exact Hw.
  - unfold cursor_in_range. vm_compute. lia.
  - apply (reachable_run (Deliver disconnect) _ (Return tt) _
             (effects (run (Deliver disconnect)
                (world (constructor [] None default_reconnectInterval
                          default_connectionTimeout 0 [])))) Hw).
    reflexivity.
  - unfold cursor_in_range. vm_compute. tauto.
Qed.

(** C6, amended: the claim for a non-empty candidate list.
    With a non-empty candidate list the cursor of a reachable manager
    is a natural number below the length [N] of the list.  A [disconnect]
    event moves it from [i] to [(i + 1) mod N], so [k] [disconnect] events
    in a row move it to [(i + k) mod N]: from index 0, [N] of them visit
    [0, 1, ..., N-1, 0].  A [gotIP] event sets it to 0 and every other
    event leaves it alone. *)
Theorem cursor_cycling w :
  reachable w →
  accessPointConfig (self w) ≠ [] →
  let N := length (accessPointConfig (self w)) in
  ∃ i,
    APIndex (self w) = Num i ∧ i < N ∧
    (∀ m,
       APIndex (self (world (run (Deliver m) w))) =
         if decide (m = disconnect) then Num ((i + 1) mod N)
         else if decide (m = gotIP) then Num 0
         else Num i) ∧
    (∀ k,
       APIndex (self (run_all (replicate k (Deliver disconnect)) w).1) =
         Num ((i + k) mod N)) ∧
    (i = 0 → visited w N = Num <$> (seq 0 N ++ [0])).
Proof.
  intros Hw Hcfg N.
  assert (Hr := reachable_cursor_in_range w Hw Hcfg).
  unfold cursor_in_range in Hr.
  destruct (APIndex (self w)) as [i|] eqn:Hi; [|done].
  assert (Hk : ∀ k,
    APIndex (self (run_all (replicate k (Deliver disconnect)) w).1) =
      Num ((i + k) mod N)) by (intros k; by apply disconnects_advance).
  exists i. split_and!; try done.
  - intros m. destruct m; cbn [decide_rel]; cbn [run];
      [ rewrite handleWiFiEvent_gotIP_eq
      | rewrite handleWiFiEvent_passive_eq by done
      | rewrite handleWiFiEvent_connect_eq
      | exact (proj1 (disconnect_advances w i Hi Hcfg))
      | rewrite handleWiFiEvent_passive_eq by done
      | rewrite handleWiFiEvent_passive_eq by done ];
      open_world w; cbn in *; by subst.
  - intros ->. unfold visited. rewrite seq_S, !fmap_app. cbn [fmap list_fmap].
    rewrite Hk. cbn [plus]. rewrite Nat.Div0.mod_same. f_equal.
    apply list_eq. intros j. rewrite !list_lookup_fmap.
    destruct (seq 0 N !! j) as [k|] eqn:Hj; [|done]. cbn.
    apply lookup_seq in Hj as [-> Hj]. rewrite Hk. cbn [plus].
    by rewrite Nat.mod_small.
Qed.

Lemma cursor_cycling_witness :
  let N := length (accessPointConfig (self started)) in
  reachable started ∧
  accessPointConfig (self started) ≠ [] ∧
  ∃ i,
    APIndex (self started) = Num i ∧ i < N ∧
    (∀ m,
       APIndex (self (world (run (Deliver m) started))) =
         if decide (m = disconnect) then Num ((i + 1) mod N)
         else if decide (m = gotIP) then Num 0
         else Num i) ∧
    (∀ k,
       APIndex (self (run_all (replicate k (Deliver disconnect)) started).1) =
         Num ((i + k) mod N)) ∧
    (i = 0 → visited started N = Num <$> (seq 0 N ++ [0])).
Proof.
  assert (Hcfg : accessPointConfig (self started) ≠ []) by discriminate.
  split; [exact started_reachable|]. split; [exact Hcfg|].
  exact (cursor_cycling started started_reachable Hcfg).
Defined.

(** With two candidates the visit is [0, 1, 0]. *)
Example two_candidates_visit :
  visited started 2 = [Num 0; Num 1; Num 0].
Proof. reflexivity. Qed.

(** With an empty list, which the constructor lets through, the first
    [disconnect] event leaves [NaN] in the cursor. *)
Example empty_list_cursor :
  APIndex (self (world (run (Deliver disconnect)
    (world (constructor [] None 5000 30000 0 []))))) = NaN.
Proof. reflexivity. Qed.

(** ** [gotIP] *)

(** C7.  In every state a [gotIP] event calls [Timer.clear] on the handle
    of each timer field that holds one and empties both fields, so that no
    handle the manager held stays live; it puts the cursor at 0, makes
    [gotIP] the current state, so that [ready] is true, and forwards
    [gotIP] to the callback. *)
Theorem gotIP_connects w :
  let r := run (Deliver gotIP) w in
  result r = Return tt ∧
  connectionTimer (self (world r)) = None ∧
  reconnectTimer (self (world r)) = None ∧
  timers_cleared (effects r) = held (self w) ∧
  timers (world r) =
    cancel (reconnectTimer (self w))
      (cancel (connectionTimer (self w)) (timers w)) ∧
  Forall (λ h, timers (world r) !! h = None) (held (self w)) ∧
  timers_set (effects r) = [] ∧
  APIndex (self (world r)) = Num 0 ∧
  currentState (self (world r)) = gotIP ∧
  ready (self (world r)) = true ∧
  notifications (effects r) =
    match onNetworkChange (self w) with Some _ => [gotIP] | None => [] end ∧
  effects r =
    clears (connectionTimer (self w)) ++ clears (reconnectTimer (self w)) ++
    forwards (onNetworkChange (self w)) gotIP.
Proof.
  cbn zeta. cbn [run]. rewrite handleWiFiEvent_gotIP_eq.
  open_world w. unfold held. cbn -[lookup delete].
  destruct ct as [hc|], rt as [hr|], cb; cbn -[lookup delete];
    split_and!; try done; repeat constructor;
    rewrite ?lookup_delete_eq; try done.
  all: destruct (decide (hr = hc)) as [->|];
    [by rewrite lookup_delete_eq
    |by rewrite lookup_delete_ne, lookup_delete_eq].
Qed.

(** ** Expiry of the reconnect timer *)

(** C8.  When a reconnect timer is due, its callback runs with the
    [reconnectTimer] field already emptied and calls the driver's [connect]
    with the candidate under the cursor.  When the call returns, a
    connection timer is started and stored.  When the call throws, the
    error is traced and [handleDisconnect] runs: the cursor advances and a
    new reconnect timer is scheduled.  In both cases the callback returns
    normally. *)
Theorem reconnect_expiry h ms w :
  timers w !! h = Some (ReconnectFn, ms) →
  let r := run (Expire h) w in
  let m := self w in
  let candidate := array_get (accessPointConfig m) (APIndex m) in
  let next := nextTimer w in
  result r = Return tt ∧
  if rejects (driver w) then
    let w1 :=
      mkWorld (set_reconnectTimer None m) (delete h (timers w)) next
        (drop 1 (driver w)) in
    world r = world (handleDisconnect w1) ∧
    effects r =
      [TimerFired h; Driver (DriverConnect candidate);
       Trace "Error during reconnect:driver"] ++
      effects (handleDisconnect w1) ∧
    timers_set (effects r) = [(next, ReconnectFn)] ∧
    APIndex (self (world r)) =
      next_index (APIndex m) (length (accessPointConfig m)) ∧
    reconnectTimer (self (world r)) = Some next ∧
    connectionTimer (self (world r)) = None ∧
    timers (world r) !! next = Some (ReconnectFn, reconnectInterval m)
  else
    effects r =
      [TimerFired h; Driver (DriverConnect candidate);
       TimerSet next ConnectionTimeoutFn (connectionTimeout m)] ∧
    reconnectTimer (self (world r)) = None ∧
    connectionTimer (self (world r)) = Some next ∧
    APIndex (self (world r)) = APIndex m ∧
    timers (world r) =
      <[next := (ConnectionTimeoutFn, connectionTimeout m)]>
        (delete h (timers w)).
Proof.
  intros Hl. cbn zeta. cbn [run]. rewrite Timer_fire_eq, Hl. cbn zeta.
  rewrite reconnect_fn_eq. cbn zeta. cbn [driver nextTimer self timers].
  destruct (rejects (driver w)); [|by open_world w].
  split; [done|]. split; [done|]. split; [done|].
  rewrite handleDisconnect_eq. open_world w. cbn -[lookup insert delete].
  split_and!; try done.
  - by destruct ct, (decide (st = disconnect)), cb.
  - by rewrite lookup_insert_eq.
Qed.

Lemma reconnect_expiry_witness :
  timers retrying !! 1 = Some (ReconnectFn, 5000%N) ∧
  result (run (Expire 1) retrying) = Return tt ∧
  effects (run (Expire 1) retrying) =
    [TimerFired 1; Driver (DriverConnect (Some office));
     TimerSet 2 ConnectionTimeoutFn 30000] ∧
  connectionTimer (self (world (run (Expire 1) retrying))) = Some 2.
Proof.
  assert (Hl : timers retrying !! 1 = Some (ReconnectFn, 5000%N))
    by reflexivity.
  split; [exact Hl|].
  destruct (reconnect_expiry 1 5000%N retrying Hl) as (Hr & He & _ & Hc & _).
  split; [exact Hr|]. split; [exact He|exact Hc].
Defined.

(** A driver that rejects the reconnect attempt: the next candidate and a
    new reconnect timer. *)
Example reconnect_rejected :
  let w := mkWorld (self retrying) (timers retrying) 2 [true] in
  result (run (Expire 1) w) = Return tt ∧
  effects (run (Expire 1) w) =
    [TimerFired 1; Driver (DriverConnect (Some office));
     Trace "Error during reconnect:driver"; TimerSet 2 ReconnectFn 5000] ∧
  APIndex (self (world (run (Expire 1) w))) = Num 0.
Proof. repeat split; reflexivity. Qed.

(** ** One timer per role *)

(** C9.  In a reachable world the timer service holds, for the manager, at
    most one connection timer and at most one reconnect timer, namely the
    ones whose handles the two fields store; and whatever happens next, no
    [Timer.set] of the step is issued while a timer with the same callback
    is still live: an earlier one has been cleared or has fired before. *)
Theorem timer_exclusivity w :
  reachable w →
  (∀ h1 h2 v1 v2,
     timers w !! h1 = Some v1 → timers w !! h2 = Some v2 →
     v1.1 = v2.1 → h1 = h2) ∧
  timers_owned w ∧
  (∀ a, exclusive (timers w) (effects (run a w))) ∧
  (∀ a, timers_owned (world (run a w))).
Proof.
  intros Hw. assert (Ho := reachable_timers_owned w Hw).
  split_and!; [|done|intros a; by apply exclusive_run
              |intros a; by apply timers_owned_run].
  intros h1 h2 v1 v2 H1 H2 _. revert Ho H1 H2. unfold timers_owned.
  destruct (connectionTimer (self w)), (reconnectTimer (self w));
    try done; intros ->; rewrite ?lookup_empty; try done;
    intros [-> _]%lookup_singleton_Some [-> _]%lookup_singleton_Some; done.
Qed.

Lemma timer_exclusivity_witness :
  reachable started ∧
  timers_owned started ∧
  exclusive (timers started) (effects (run (Deliver disconnect) started)).
Proof.
  split; [exact started_reachable|].
  destruct (timer_exclusivity started started_reachable) as (_ & Ho & He & _).
  split; [exact Ho|exact (He (Deliver disconnect))].
Defined.

(** Outside the reachable worlds [startConnectionTimer] would overwrite a
    handle: it issues no [Timer.clear] of its own. *)
Example startConnectionTimer_does_not_clear :
  effects (startConnectionTimer started) =
    [TimerSet 1 ConnectionTimeoutFn 30000] ∧
  timers (world (startConnectionTimer started)) !! 0 =
    Some (ConnectionTimeoutFn, 30000%N).
Proof. split; reflexivity. Qed.

(** ** [lostIP] *)

(** C10.  At a connected manager a [lostIP] event makes [lostIP] the
    current state, so that [ready] is false, and forwards [lostIP] to the
    callback; the cursor, both timer handles and the live timers stay as
    they are, no timer is set or cleared and the driver is not called. *)
Theorem lostIP_frame w :
  ready (self w) = true →
  let r := run (Deliver lostIP) w in
  result r = Return tt ∧
  currentState (self (world r)) = lostIP ∧
  ready (self (world r)) = false ∧
  effects r = forwards (onNetworkChange (self w)) lostIP ∧
  world r = with_self (set_currentState lostIP) w ∧
  APIndex (self (world r)) = APIndex (self w) ∧
  connectionTimer (self (world r)) = connectionTimer (self w) ∧
  reconnectTimer (self (world r)) = reconnectTimer (self w) ∧
  timers (world r) = timers w ∧
  timers_set (effects r) = [] ∧
  timers_cleared (effects r) = [] ∧
  driver_calls (effects r) = [].
Proof.
  intros _. cbn zeta. cbn [run]. rewrite handleWiFiEvent_passive_eq by done.
  open_world w. by destruct cb.
Qed.

Lemma lostIP_frame_witness :
  ready (self online) = true ∧
  ready (self (world (run (Deliver lostIP) online))) = false ∧
  effects (run (Deliver lostIP) online) = [Callback 0 lostIP].
Proof.
  assert (Hr : ready (self online) = true) by reflexivity.
  split; [exact Hr|].
  destruct (lostIP_frame online Hr) as (_ & _ & Hf & He & _).
  split; [exact Hf|exact He].
Defined.

(** ** More equations *)

Ltac event_eq m :=
  destruct m;
    [ rewrite handleWiFiEvent_gotIP_eq
    | rewrite handleWiFiEvent_passive_eq by done
    | rewrite handleWiFiEvent_connect_eq
    | rewrite handleWiFiEvent_disconnect_eq, handleDisconnect_eq
    | rewrite handleWiFiEvent_passive_eq by done
    | rewrite handleWiFiEvent_passive_eq by done ].

Lemma clearConnectionTimer_eq w :
  clearConnectionTimer w =
  (Return tt,
   mkWorld (set_connectionTimer None (self w))
     (cancel (connectionTimer (self w)) (timers w)) (nextTimer w) (driver w),
   clears (connectionTimer (self w))).
Proof. open_world w. by destruct ct. Qed.

Lemma clearReconnectTimer_eq w :
  clearReconnectTimer w =
  (Return tt,
   mkWorld (set_reconnectTimer None (self w))
     (cancel (reconnectTimer (self w)) (timers w)) (nextTimer w) (driver w),
   clears (reconnectTimer (self w))).
Proof. open_world w. by destruct rt. Qed.

Lemma online_reachable : reachable online.
Proof.
  apply (reachable_run (Deliver gotIP) started (Return tt) online
           (effects (run (Deliver gotIP) started)) started_reachable).
  reflexivity.
Defined.

Lemma retrying_reachable : reachable retrying.
Proof.
  apply (reachable_run (Deliver disconnect) started (Return tt) retrying
           (effects (run (Deliver disconnect) started)) started_reachable).
  reflexivity.
Defined.

(** ** Expiry of the connection timer *)

(** X1.  When the connection timer of a reachable manager is due, its
    callback empties the [connectionTimer] field and calls the driver's
    [disconnect] once; a rejection is traced and swallowed.  The callback
    schedules nothing and notifies nobody, the current state and the cursor
    stay as they are, and afterwards the manager holds no timer at all: it
    is the driver's [disconnect] event that starts the retry. *)
Theorem connection_timeout_expiry h ms w :
  reachable w →
  timers w !! h = Some (ConnectionTimeoutFn, ms) →
  let r := run (Expire h) w in
  result r = Return tt ∧
  effects r =
    [TimerFired h; TimerClear h; Driver DriverDisconnect] ++
    (if rejects (driver w)
     then [Trace "Error during forced disconnect:driver"] else []) ∧
  connectionTimer (self (world r)) = None ∧
  reconnectTimer (self (world r)) = None ∧
  timers (world r) = ∅ ∧
  currentState (self (world r)) = currentState (self w) ∧
  APIndex (self (world r)) = APIndex (self w).
Proof.
  intros Hw Hl. apply reachable_timers_owned in Hw.
  destruct (timers_owned_fired _ _ _ _ Hw Hl) as (Htm & Hc & Hr & _).
  cbn zeta. cbn [run]. rewrite Timer_fire_eq, Hl. cbn zeta.
  rewrite connection_timeout_fn_eq. open_world w. cbn in *. subst. cbn.
  map_simpl. by destruct (rejects dr).
Qed.

Lemma connection_timeout_expiry_witness :
  reachable started ∧
  timers started !! 0 = Some (ConnectionTimeoutFn, 30000%N) ∧
  effects (run (Expire 0) started) =
    [TimerFired 0; TimerClear 0; Driver DriverDisconnect] ∧
  timers (world (run (Expire 0) started)) = ∅.
Proof.
  assert (Hl : timers started !! 0 = Some (ConnectionTimeoutFn, 30000%N))
    by reflexivity.
  split; [exact started_reachable|]. split; [exact Hl|].
  destruct (connection_timeout_expiry 0 30000%N started started_reachable Hl)
    as (_ & He & _ & _ & Ht & _).
  split; [exact He|exact Ht].
Defined.

(** ** The [connect] event *)

(** X2.  A [connect] event cancels the reconnect timer only: the
    [connectionTimer] field is untouched, so a running connection timeout
    keeps guarding the attempt.  The cursor stays, [connect] becomes the
    current state ([ready] is false) and is forwarded once. *)
Theorem connect_keeps_connection_timer w :
  let r := run (Deliver connect) w in
  result r = Return tt ∧
  connectionTimer (self (world r)) = connectionTimer (self w) ∧
  reconnectTimer (self (world r)) = None ∧
  timers (world r) = cancel (reconnectTimer (self w)) (timers w) ∧
  timers_cleared (effects r) = option_list (reconnectTimer (self w)) ∧
  timers_set (effects r) = [] ∧
  driver_calls (effects r) = [] ∧
  APIndex (self (world r)) = APIndex (self w) ∧
  currentState (self (world r)) = connect ∧
  ready (self (world r)) = false ∧
  notifications (effects r) =
    match onNetworkChange (self w) with Some _ => [connect] | None => [] end.
Proof.
  cbn zeta. cbn [run]. rewrite handleWiFiEvent_connect_eq.
  open_world w. by destruct rt, cb.
Qed.

(** ** Clearing timers *)

(** X3.  Clearing is guarded by the field: once a timer field has been
    cleared, clearing it again calls [Timer.clear] for nothing and changes
    nothing, for each of the two fields and for [clearTimers]; and the
    world after [clearTimers] does not depend on the order of the two
    clears. *)
Theorem clear_is_idempotent w :
  clearConnectionTimer (world (clearConnectionTimer w)) =
    (Return tt, world (clearConnectionTimer w), []) ∧
  clearReconnectTimer (world (clearReconnectTimer w)) =
    (Return tt, world (clearReconnectTimer w), []) ∧
  clearTimers (world (clearTimers w)) =
    (Return tt, world (clearTimers w), []) ∧
  world (clearTimers w) =
    world (clearConnectionTimer (world (clearReconnectTimer w))) ∧
  reconnectTimer (self (world (clearConnectionTimer w))) =
    reconnectTimer (self w) ∧
  connectionTimer (self (world (clearReconnectTimer w))) =
    connectionTimer (self w).
Proof.
  rewrite !clearTimers_eq, !clearConnectionTimer_eq, !clearReconnectTimer_eq.
  open_world w. cbn -[delete].
  split_and!; try done.
  destruct ct, rt; cbn -[delete]; try done.
  by rewrite delete_delete.
Qed.

(** ** Driver calls and exceptions *)

(** X4.  Handling a driver event never calls the driver: whatever the
    message and the state, the code of [handleWiFiEvent] and of
    [handleDisconnect] issues no driver call and takes no answer of the
    driver. *)
Theorem events_never_call_driver m w :
  driver_calls (effects (run (Deliver m) w)) = [] ∧
  driver (world (run (Deliver m) w)) = driver w.
Proof.
  cbn [run]. event_eq m; open_world w; cbn;
    destruct ct, rt, cb, (decide (st = disconnect)); done.
Qed.

(** X5.  No exception of the driver escapes an action.  For an action
    that calls no callback, as [close()] and the expiry of a connection
    timer always are, and so leaving aside what the caller's own code may
    throw: the action returns normally for every answer of the driver,
    each driver call takes one answer, and each rejection among them is
    caught and traced once. *)
Theorem driver_exceptions_never_escape a w :
  notifications (effects (run a w)) = [] →
  let r := run a w in
  let n := length (driver_calls (effects r)) in
  result r = Return tt ∧
  driver (world r) = drop n (driver w) ∧
  length (traces (effects r)) = rejections (take n (driver w)).
Proof.
  intros _. cbn zeta. split; [apply run_returns|].
  destruct a as [m|h|]; cbn [run].
  - event_eq m; open_world w; cbn;
      destruct ct, rt, cb, (decide (st = disconnect)); done.
  - rewrite Timer_fire_eq. destruct (timers w !! h) as [[[] ms]|]; cbn zeta.
    + rewrite connection_timeout_fn_eq. open_world w. cbn.
      by destruct ct, dr as [|[] dr].
    + rewrite reconnect_fn_eq. cbn zeta. cbn [driver].
      destruct (rejects (driver w)) eqn:E; [rewrite handleDisconnect_eq|];
        open_world w; cbn in *;
        destruct ct, cb, (decide (st = disconnect)), dr as [|[] dr];
        done.
    + by rewrite drop_0.
  - rewrite close_eq. open_world w. cbn.
    by destruct ct, rt, dr as [|[] [|[] dr]].
Qed.

Lemma driver_exceptions_never_escape_witness :
  notifications (effects (run Close flaky)) = [] ∧
  driver flaky = [true; true; true] ∧
  result (run Close flaky) = Return tt ∧
  driver (world (run Close flaky)) = [true] ∧
  length (traces (effects (run Close flaky))) = 2.
Proof.
  assert (Hq : notifications (effects (run Close flaky)) = [])
    by reflexivity.
  split; [exact Hq|]. split; [reflexivity|].
  destruct (driver_exceptions_never_escape Close flaky Hq) as (Hr & Hd & Ht).
  split; [exact Hr|]. split; [exact Hd|exact Ht].
Defined.

(** ** Readiness *)

(** X6.  [ready] is true after an event exactly when the event is
    [gotIP]: every other message, [lostIP] and the station messages
    included, leaves a manager that is not ready.  [close()] does not
    touch the current state: a manager that was ready still reports ready
    after [close()]. *)
Theorem ready_follows_last_event w :
  (∀ m, ready (self (world (run (Deliver m) w))) = bool_decide (m = gotIP)) ∧
  (∀ m, currentState (self (world (run (Deliver m) w))) = m) ∧
  currentState (self (world (run Close w))) = currentState (self w) ∧
  ready (self (world (run Close w))) = ready (self w).
Proof.
  split_and!.
  - intros m. cbn [run]. event_eq m; by open_world w.
  - intros m. cbn [run]. event_eq m; by open_world w.
  - cbn [run]. rewrite close_eq. by open_world w.
  - cbn [run]. rewrite close_eq. by open_world w.
Qed.

Lemma ready_idle_run a w :
  timers_owned w →
  (currentState (self w) = gotIP →
   connectionTimer (self w) = None ∧ reconnectTimer (self w) = None) →
  currentState (self (world (run a w))) = gotIP →
  connectionTimer (self (world (run a w))) = None ∧
  reconnectTimer (self (world (run a w))) = None.
Proof.
  intros Ho Hidle. destruct a as [m|h|]; cbn [run].
  - event_eq m; open_world w; cbn; done.
  - rewrite Timer_fire_eq.
    destruct (timers w !! h) as [[f ms]|] eqn:Hl; [|done].
    destruct (timers_owned_fired _ _ _ _ Ho Hl) as [Htm Hf].
    cbn zeta. destruct f.
    + destruct Hf as (Hc & Hr & _). rewrite connection_timeout_fn_eq.
      open_world w. cbn in *. intros ->. destruct (Hidle eq_refl). congruence.
    + destruct Hf as (Hr & Hc & _). rewrite reconnect_fn_eq. cbn zeta.
      destruct (rejects _); [rewrite handleDisconnect_eq|];
        open_world w; cbn in *; [done|].
      intros ->. destruct (Hidle eq_refl). congruence.
  - rewrite close_eq. by open_world w.
Qed.

Lemma reachable_ready_idle w :
  reachable w →
  currentState (self w) = gotIP →
  connectionTimer (self w) = None ∧ reconnectTimer (self w) = None.
Proof.
  induction 1 as [cfg cb ri cto next outcomes w l Hnew|a w o w' l Hw IH Hrun].
  - rewrite constructor_eq in Hnew. destruct (rejects outcomes); [done|].
    by simplify_eq.
  - replace w' with (world (run a w)) by by rewrite Hrun.
    apply ready_idle_run; [by apply reachable_timers_owned|done].
Qed.

(** X7.  A reachable manager that is ready holds no timer: both timer
    fields are empty and nothing of it is scheduled, so no timer expiry can
    disturb it. *)
Theorem ready_holds_no_timer w :
  reachable w →
  ready (self w) = true →
  connectionTimer (self w) = None ∧
  reconnectTimer (self w) = None ∧
  timers w = ∅ ∧
  ∀ h, run (Expire h) w = (Return tt, w, []).
Proof.
  intros Hw Hr. apply bool_decide_eq_true in Hr.
  destruct (reachable_ready_idle w Hw Hr) as [Hc Hrt].
  assert (Ht : timers w = ∅).
  { apply reachable_timers_owned in Hw. unfold timers_owned in Hw.
    by rewrite Hc, Hrt in Hw. }
  split_and!; try done.
  intros h. cbn [run]. rewrite Timer_fire_eq, Ht, lookup_empty. done.
Qed.

Lemma ready_holds_no_timer_witness :
  reachable online ∧
  ready (self online) = true ∧
  timers online = ∅ ∧
  run (Expire 0) online = (Return tt, online, []).
Proof.
  assert (Hr : ready (self online) = true) by reflexivity.
  split; [exact online_reachable|]. split; [exact Hr|].
  destruct (ready_holds_no_timer online online_reachable Hr)
    as (_ & _ & Ht & He).
  split; [exact Ht|exact (He 0)].
Defined.

(** ** The bookkeeping of a [disconnect] event *)

(** X8.  In every state a [disconnect] event calls [Timer.clear] on each
    handle the manager holds, empties the [connectionTimer] field and
    schedules exactly one timer: a reconnect timer with the configured
    [reconnectInterval], stored in [reconnectTimer].  The current state
    becomes [disconnect], and the driver is not called before that timer
    expires. *)
Theorem disconnect_schedules_one_retry w :
  let r := run (Deliver disconnect) w in
  let next := nextTimer w in
  result r = Return tt ∧
  timers_cleared (effects r) = held (self w) ∧
  timers_set (effects r) = [(next, ReconnectFn)] ∧
  timers_delays (effects r) = [(ReconnectFn, reconnectInterval (self w))] ∧
  driver_calls (effects r) = [] ∧
  connectionTimer (self (world r)) = None ∧
  reconnectTimer (self (world r)) = Some next ∧
  timers (world r) !! next = Some (ReconnectFn, reconnectInterval (self w)) ∧
  nextTimer (world r) = S next ∧
  currentState (self (world r)) = disconnect.
Proof.
  cbn zeta. cbn [run]. rewrite handleWiFiEvent_disconnect_eq, handleDisconnect_eq.
  open_world w. unfold held. cbn -[lookup insert delete].
  rewrite lookup_insert_eq.
  by destruct ct, rt, cb, (decide (st = disconnect)).
Qed.

(** ** The candidate of a reconnect attempt *)

(** X9.  With a non-empty candidate list, the reconnect attempt of a
    reachable manager always hands the driver a candidate of the list, the
    one under the cursor: [WiFi.connect] is never called with
    [undefined]. *)
Theorem reconnect_uses_a_candidate h ms w :
  reachable w →
  accessPointConfig (self w) ≠ [] →
  timers w !! h = Some (ReconnectFn, ms) →
  ∃ i ap,
    APIndex (self w) = Num i ∧
    accessPointConfig (self w) !! i = Some ap ∧
    driver_calls (effects (run (Expire h) w)) = [DriverConnect (Some ap)].
Proof.
  intros Hw Hcfg Hl.
  assert (Hr := reachable_cursor_in_range w Hw Hcfg).
  unfold cursor_in_range in Hr.
  destruct (APIndex (self w)) as [i|] eqn:Hi; [|done].
  destruct (lookup_lt_is_Some_2 _ _ Hr) as [ap Hap].
  exists i, ap. split_and!; try done.
  cbn [run]. rewrite Timer_fire_eq, Hl. cbn zeta.
  rewrite reconnect_fn_eq. cbn zeta. cbn [self driver].
  rewrite Hi. cbn [array_get]. rewrite Hap.
  destruct (rejects (driver w)); [rewrite handleDisconnect_eq|];
    open_world w; cbn; [|done].
  by destruct ct, cb, (decide (st = disconnect)).
Qed.

Lemma reconnect_uses_a_candidate_witness :
  reachable retrying ∧
  accessPointConfig (self retrying) ≠ [] ∧
  timers retrying !! 1 = Some (ReconnectFn, 5000%N) ∧
  ∃ i ap,
    APIndex (self retrying) = Num i ∧
    accessPointConfig (self retrying) !! i = Some ap ∧
    driver_calls (effects (run (Expire 1) retrying)) =
      [DriverConnect (Some ap)].
Proof.
  assert (Hcfg : accessPointConfig (self retrying) ≠ []) by discriminate.
  assert (Hl : timers retrying !! 1 = Some (ReconnectFn, 5000%N))
    by reflexivity.
  split; [exact retrying_reachable|]. split; [exact Hcfg|].
  split; [exact Hl|].
  exact (reconnect_uses_a_candidate 1 5000%N retrying retrying_reachable
           Hcfg Hl).
Defined.

(** X10.  With an empty candidate list the remainder by the zero length
    puts [NaN] in the cursor at the first [disconnect] event, from any
    cursor; a reconnect attempt then calls [WiFi.connect] with
    [undefined], and so does one after a [gotIP] has put the cursor back
    to 0. *)
Theorem empty_list_reconnects_with_undefined w :
  accessPointConfig (self w) = [] →
  APIndex (self (world (run (Deliver disconnect) w))) = NaN ∧
  accessPointConfig (self (world (run (Deliver disconnect) w))) = [] ∧
  APIndex (self (world (run (Deliver gotIP) w))) = Num 0 ∧
  ∀ h,
    driver_calls (effects (run (Expire h) w)) =
      match timers w !! h with
      | Some (ReconnectFn, _) => [DriverConnect None]
      | Some (ConnectionTimeoutFn, _) => [DriverDisconnect]
      | None => []
      end.
Proof.
  intros Hcfg. split_and!.
  - cbn [run]. rewrite handleWiFiEvent_disconnect_eq, handleDisconnect_eq.
    open_world w. cbn in *. subst. by destruct idx.
  - cbn [run]. rewrite handleWiFiEvent_disconnect_eq, handleDisconnect_eq.
    by open_world w.
  - cbn [run]. rewrite handleWiFiEvent_gotIP_eq. by open_world w.
  - intros h. cbn [run]. rewrite Timer_fire_eq.
    destruct (timers w !! h) as [[[] ms]|]; cbn zeta; [| |done].
    + rewrite connection_timeout_fn_eq. open_world w. cbn.
      by destruct ct, (rejects dr).
    + rewrite reconnect_fn_eq. cbn zeta. cbn [self driver].
      rewrite Hcfg.
      assert (Hnone : array_get (@nil WiFiOptions) (APIndex (self w)) = None)
        by by destruct (APIndex (self w)).
      rewrite Hnone.
      destruct (rejects (driver w)); [rewrite handleDisconnect_eq|];
        open_world w; cbn; [|done].
      by destruct ct, cb, (decide (st = disconnect)).
Qed.

Lemma empty_list_reconnects_with_undefined_witness :
  accessPointConfig (self stray) = [] ∧
  APIndex (self stray) = NaN ∧
  driver_calls (effects (run (Expire 1) stray)) = [DriverConnect None].
Proof.
  assert (Hcfg : accessPointConfig (self stray) = []) by reflexivity.
  split; [exact Hcfg|]. split; [reflexivity|].
  destruct (empty_list_reconnects_with_undefined stray Hcfg)
    as (_ & _ & _ & He).
  exact (He 1).
Defined.

(** ** After [close()] *)

(** X11.  After [close()] of a reachable manager nothing of it is
    scheduled any more: no timer callback will run, whichever handle
    expires. *)
Theorem close_leaves_no_timer w :
  reachable w →
  let closed := world (run Close w) in
  timers closed = ∅ ∧
  ∀ h, run (Expire h) closed = (Return tt, closed, []).
Proof.
  intros Hw. cbn zeta.
  assert (Ht : timers (world (run Close w)) = ∅).
  { assert (Ho := timers_owned_close w (reachable_timers_owned w Hw)).
    revert Ho. cbn [run]. rewrite close_eq. unfold timers_owned.
    by open_world w. }
  split; [done|]. intros h. cbn [run] in *.
  by rewrite Timer_fire_eq, Ht, lookup_empty.
Qed.

Lemma close_leaves_no_timer_witness :
  reachable retrying ∧
  timers retrying !! 1 = Some (ReconnectFn, 5000%N) ∧
  timers (world (run Close retrying)) = ∅ ∧
  run (Expire 1) (world (run Close retrying)) =
    (Return tt, world (run Close retrying), []).
Proof.
  split; [exact retrying_reachable|]. split; [reflexivity|].
  destruct (close_leaves_no_timer retrying retrying_reachable) as [Ht He].
  split; [exact Ht|exact (He 1)].
Defined.

(** ** What no action changes *)

Lemma run_keeps_configuration a w :
  accessPointConfig (self (world (run a w))) = accessPointConfig (self w) ∧
  onNetworkChange (self (world (run a w))) = onNetworkChange (self w) ∧
  reconnectInterval (self (world (run a w))) = reconnectInterval (self w) ∧
  connectionTimeout (self (world (run a w))) = connectionTimeout (self w).
Proof.
  destruct a as [m|h|]; cbn [run].
  - event_eq m; by open_world w.
  - rewrite Timer_fire_eq. destruct (timers w !! h) as [[[] ms]|]; cbn zeta;
      [rewrite connection_timeout_fn_eq; by open_world w| |done].
    rewrite reconnect_fn_eq. cbn zeta. destruct (rejects _);
      [rewrite handleDisconnect_eq|]; by open_world w.
  - rewrite close_eq. by open_world w.
Qed.

(** X12.  The configuration is constant: no event, timer expiry or
    [close()] changes the candidate list, the callback or the two
    delays. *)
Theorem configuration_is_constant a w :
  let m' := self (world (run a w)) in
  accessPointConfig m' = accessPointConfig (self w) ∧
  onNetworkChange m' = onNetworkChange (self w) ∧
  reconnectInterval m' = reconnectInterval (self w) ∧
  connectionTimeout m' = connectionTimeout (self w).
Proof. apply run_keeps_configuration. Qed.

(** ** What the callback is told *)

(** X15.  The caller's callback only ever receives the message of the
    event being handled; a timer expiry can only notify [disconnect], and
    [close()] notifies nothing. *)
Theorem callback_receives_only_the_event a w :
  Forall (may_notify a) (notifications (effects (run a w))).
Proof.
  destruct a as [m|h|]; cbn [run].
  - event_eq m; open_world w; cbn;
      destruct ct, rt, cb, (decide (st = disconnect)); cbn;
      repeat constructor.
  - rewrite Timer_fire_eq. destruct (timers w !! h) as [[[] ms]|]; cbn zeta;
      [| |by constructor].
    + rewrite connection_timeout_fn_eq. open_world w. cbn.
      destruct ct, (rejects dr); constructor.
    + rewrite reconnect_fn_eq. cbn zeta. destruct (rejects _);
        [rewrite handleDisconnect_eq|]; open_world w; cbn;
        [|constructor].
      destruct ct, cb, (decide (st = disconnect)); cbn; repeat constructor.
  - rewrite close_eq. open_world w. cbn.
    destruct ct, rt, (rejects dr), (rejects (drop 1 dr)); constructor.
Qed.

(** ** What an action schedules *)

(** X16.  An action schedules at most one timer, under the handle the
    timer service hands out next and with the delay configured for its
    callback: [connectionTimeout] for a connection timer and
    [reconnectInterval] for a reconnect timer. *)
Theorem action_schedules_at_most_one_timer a w :
  let r := run a w in
  length (timers_set (effects r)) ≤ 1 ∧
  Forall (λ p, p.1 = nextTimer w) (timers_set (effects r)) ∧
  Forall (λ p, p.2 = delay (self w) p.1) (timers_delays (effects r)) ∧
  nextTimer (world r) = nextTimer w + length (timers_set (effects r)).
Proof.
  cbn zeta. destruct a as [m|h|]; cbn [run].
  - event_eq m; open_world w; cbn;
      destruct ct, rt, cb, (decide (st = disconnect)); cbn;
      split_and!; repeat constructor; lia.
  - rewrite Timer_fire_eq. destruct (timers w !! h) as [[[] ms]|]; cbn zeta.
    + rewrite connection_timeout_fn_eq. open_world w. cbn.
      destruct ct, (rejects dr); cbn; split_and!; repeat constructor; lia.
    + rewrite reconnect_fn_eq. cbn zeta. destruct (rejects _);
        [rewrite handleDisconnect_eq|]; open_world w; cbn;
        [destruct ct, cb, (decide (st = disconnect))|]; cbn;
        split_and!; repeat constructor; lia.
    + cbn. split_and!; repeat constructor; lia.
  - rewrite close_eq. open_world w. cbn.
    destruct ct, rt, (rejects dr), (rejects (drop 1 dr)); cbn;
      split_and!; repeat constructor; lia.
Qed.

(** ** Rejected reconnect attempts *)

Lemma run_eta a w :
  run a w = (result (run a w), world (run a w), effects (run a w)).
Proof. by destruct (run a w) as [[o w'] l]. Qed.

Lemma rejected_retry h w i rest :
  timers_owned w →
  reconnectTimer (self w) = Some h →
  APIndex (self w) = Num i →
  driver w = true :: rest →
  let r := run (Expire h) w in
  driver_calls (effects r) =
    [DriverConnect (accessPointConfig (self w) !! i)] ∧
  APIndex (self (world r)) =
    next_index (Num i) (length (accessPointConfig (self w))) ∧
  is_Some (reconnectTimer (self (world r))) ∧
  driver (world r) = rest.
Proof.
  intros Ho Hrt Hi Hd. cbn zeta. cbn [run]. rewrite Timer_fire_eq.
  assert (Hl : timers w !! h =
               Some (ReconnectFn, reconnectInterval (self w))).
  { revert Ho. unfold timers_owned. rewrite Hrt.
    destruct (connectionTimer (self w)); [done|].
    intros ->. apply lookup_singleton_eq. }
  rewrite Hl. cbn zeta. rewrite reconnect_fn_eq. cbn zeta.
  cbn [driver self]. rewrite Hd, Hi. cbn [rejects array_get].
  rewrite handleDisconnect_eq. open_world w. cbn in *. subst idx.
  destruct ct, cb, (decide (st = disconnect)); cbn; split_and!; by eauto.
Qed.

(** X14.  Reconnect attempts that the driver rejects at once go round the
    candidate list: when the next [k] driver calls are rejected, letting
    the reconnect timer expire [k] times in a row calls [WiFi.connect] with
    the candidates at [i], [i+1], ... modulo the length of the list, one
    per expiry, and each time a new reconnect timer is pending. *)
Theorem rejected_retries_cycle k : ∀ w i rest,
  reachable w →
  accessPointConfig (self w) ≠ [] →
  APIndex (self w) = Num i →
  is_Some (reconnectTimer (self w)) →
  driver w = replicate k true ++ rest →
  driver_calls (retries k w).2 =
    (λ j, DriverConnect
            (accessPointConfig (self w) !!
               ((i + j) mod length (accessPointConfig (self w)))))
      <$> seq 0 k ∧
  APIndex (self (retries k w).1) =
    Num ((i + k) mod length (accessPointConfig (self w))) ∧
  is_Some (reconnectTimer (self (retries k w).1)) ∧
  driver (retries k w).1 = rest.
Proof.
  induction k as [|k IH]; intros w i rest Hw Hcfg Hi Hrt Hd.
  - assert (Hr := reachable_cursor_in_range w Hw Hcfg).
    unfold cursor_in_range in Hr. rewrite Hi in Hr.
    cbn. rewrite Nat.add_0_r, Nat.mod_small by done. done.
  - assert (Hr := reachable_cursor_in_range w Hw Hcfg).
    unfold cursor_in_range in Hr. rewrite Hi in Hr.
    destruct Hrt as [h Hrt]. cbn [retries]. rewrite Hrt.
    destruct (rejected_retry h w i (replicate k true ++ rest)
                (reachable_timers_owned w Hw) Hrt Hi Hd)
      as (Hcalls & Hi' & Hrt' & Hd').
    assert (Hw' : reachable (world (run (Expire h) w)))
      by (eapply reachable_run; [exact Hw|apply run_eta]).
    destruct (run_keeps_configuration (Expire h) w) as (Hsame & _).
    rewrite (run_eta (Expire h) w).
    unfold next_index in Hi'. rewrite decide_False in Hi'
      by (by destruct (accessPointConfig (self w))).
    specialize (IH (world (run (Expire h) w))
                  ((i + 1) mod length (accessPointConfig (self w))) rest Hw').
    rewrite Hsame in IH. specialize (IH Hcfg Hi' Hrt' Hd').
    destruct (retries k (world (run (Expire h) w))) as [w2 l2].
    cbn [fst snd] in *. destruct IH as (IHc & IHi & IHr & IHd).
    split_and!; try done.
    + unfold driver_calls in *. rewrite omap_app, Hcalls, IHc.
      cbn [seq fmap list_fmap app].
      rewrite Nat.add_0_r, (Nat.mod_small i) by done. f_equal.
      rewrite <- fmap_S_seq, <- list_fmap_compose.
      apply list_fmap_ext. intros _ j _. cbn.
      rewrite Nat.Div0.add_mod_idemp_l. do 3 f_equal. lia.
    + rewrite IHi, Nat.Div0.add_mod_idemp_l. do 2 f_equal. lia.
Qed.

Lemma flaky_reachable : reachable flaky.
Proof.
  assert (H0 : reachable (world flaky_boot)).
  { apply (reachable_new [home; office] (Some 0) default_reconnectInterval
             default_connectionTimeout 0 [false; true; true; true]
             (world flaky_boot) (effects flaky_boot)).
    reflexivity. }
  apply (reachable_run (Deliver disconnect) (world flaky_boot) (Return tt)
           flaky (effects (run (Deliver disconnect) (world flaky_boot))) H0).
  reflexivity.
Defined.

Lemma rejected_retries_cycle_witness :
  reachable flaky ∧
  accessPointConfig (self flaky) ≠ [] ∧
  APIndex (self flaky) = Num 1 ∧
  is_Some (reconnectTimer (self flaky)) ∧
  driver flaky = replicate 3 true ++ [] ∧
  driver_calls (retries 3 flaky).2 =
    (λ j, DriverConnect ([home; office] !! ((1 + j) mod 2))) <$> seq 0 3 ∧
  APIndex (self (retries 3 flaky).1) = Num 0.
Proof.
  assert (Hcfg : accessPointConfig (self flaky) ≠ []) by discriminate.
  assert (Hi : APIndex (self flaky) = Num 1) by reflexivity.
  assert (Hrt : is_Some (reconnectTimer (self flaky))) by (by exists 1).
  assert (Hd : driver flaky = replicate 3 true ++ []) by reflexivity.
  split; [exact flaky_reachable|]. split; [exact Hcfg|].
  split; [exact Hi|]. split; [exact Hrt|]. split; [exact Hd|].
  destruct (rejected_retries_cycle 3 flaky 1 [] flaky_reachable Hcfg Hi Hrt Hd)
    as (Hc & Ha & _).
  split; [exact Hc|exact Ha].
Defined.

(** With two candidates and three rejections: office, home, office. *)
Example three_rejections :
  driver_calls (retries 3 flaky).2 =
    [DriverConnect (Some office); DriverConnect (Some home);
     DriverConnect (Some office)].
Proof. reflexivity. Qed.

(** ** The manager just constructed *)

(** X17.  When the driver accepts the construction, the new manager is
    not ready: it starts in the [disconnect] state with the cursor at 0,
    keeps the arguments it was given, holds no reconnect timer and one
    connection timer with the delay [connectionTimeout], and the first
    candidate has been handed to the driver. *)
Theorem constructed_manager cfg cb ri cto next outcomes :
  rejects outcomes = false →
  let r := constructor cfg cb ri cto next outcomes in
  let m := self (world r) in
  result r = Return tt ∧
  effects r =
    [Driver (DriverNew (cfg !! 0)); TimerSet next ConnectionTimeoutFn cto] ∧
  currentState m = disconnect ∧
  ready m = false ∧
  APIndex m = Num 0 ∧
  reconnectTimer m = None ∧
  connectionTimer m = Some next ∧
  timers (world r) !! next = Some (ConnectionTimeoutFn, cto) ∧
  accessPointConfig m = cfg ∧
  onNetworkChange m = cb ∧
  reconnectInterval m = ri ∧
  connectionTimeout m = cto ∧
  reachable (world r).
Proof.
  intros Hacc. cbn zeta.
  assert (Hreach : reachable (world (constructor cfg cb ri cto next outcomes))).
  { apply (reachable_new cfg cb ri cto next outcomes _
             (effects (constructor cfg cb ri cto next outcomes))).
    rewrite constructor_eq, Hacc. done. }
  revert Hreach. rewrite constructor_eq, Hacc. cbn -[lookup singletonM].
  intros Hreach. split_and!; try done. apply lookup_singleton_eq.
Qed.

Lemma constructed_manager_witness :
  rejects [] = false ∧
  result boot = Return tt ∧
  ready (self started) = false ∧
  connectionTimer (self started) = Some 0.
Proof.
  assert (Hacc : rejects [] = false) by reflexivity.
  split; [exact Hacc|].
  destruct (constructed_manager [home; office] (Some 0)
              default_reconnectInterval default_connectionTimeout 0 [] Hacc)
    as (Hr & _ & _ & Hready & _ & _ & Hc & _).
  split; [exact Hr|]. split; [exact Hready|exact Hc].
Defined.

(** ** The candidate tried after a connection is lost *)


(** With two candidates and a manager connected to the first one, the
    retry goes to the second. *)
Example retry_after_connection_two_candidates :
  driver_calls
    (effects (run (Expire 1)
       (run_all [Deliver gotIP; Deliver disconnect] started).1)) =
    [DriverConnect (Some office)].
Proof. reflexivity. Qed.
